(** * IAM policy ([google/api_core/iam.py]): a shallow embedding

    The module defines the class [Policy], a mutable mapping from role
    strings to sets of member strings that is stored as an ordered
    sequence of binding dicts, together with its JSON import and export
    and a handful of deprecated helpers.  The embedding below follows
    the Python source method by method. *)

From Stdlib Require Import Ascii String.
From stdpp Require Import gmap strings list.

Local Open Scope string_scope.
Local Open Scope Z_scope.
Local Open Scope list_scope.

(** ** Python values used by the module *)

(** A Python [str] object.  The methods of [Policy] compare roles with
    [is], so the identity of the object ([id(s)]) is part of the model
    next to its text. *)
Record pystr := PyStr { oid : nat; sval : string }.

Global Instance pystr_eq_dec : EqDecision pystr.
Proof. solve_decision. Defined.

(** [a is b] *)
Definition py_is (a b : pystr) : bool := bool_decide (oid a = oid b).

(** [a == b] on strings *)
Definition py_str_eq (a b : pystr) : bool := bool_decide (sval a = sval b).

(** ** String formatting *)

Module Format.

(** [fmt % args] restricted to the conversions [%s] and [%%]; [None]
    stands for the [TypeError]/[ValueError] Python raises on a wrong
    number of arguments or on another conversion. Every argument is
    already a [str], for which [%s] is the identity. *)
Fixpoint percent (fmt : string) (args : list string) : option string :=
  match fmt with
  | EmptyString =>
      match args with [] => Some EmptyString | _ :: _ => None end
  | String "%"%char (String "s"%char rest) =>
      match args with
      | a :: args' => String.append a <$> percent rest args'
      | [] => None
      end
  | String "%"%char (String "%"%char rest) => String "%"%char <$> percent rest args
  | String "%"%char _ => None
  | String c rest => String c <$> percent rest args
  end.

(** [fmt.format(a1, ..., an)] restricted to the auto-numbered field [{}];
    a lone brace is the [ValueError] case, a missing argument the
    [IndexError] case.  Surplus arguments are ignored, as in Python. *)
Fixpoint format (fmt : string) (args : list string) : option string :=
  match fmt with
  | EmptyString => Some EmptyString
  | String "{"%char (String "}"%char rest) =>
      match args with
      | a :: args' => String.append a <$> format rest args'
      | [] => None
      end
  | String "{"%char _ => None
  | String "}"%char _ => None
  | String c rest => String c <$> format rest args
  end.

End Format.

(** ** Module constants *)

(** The three generic roles are module-level string objects; each has
    one identity for the life of the process. *)
Definition OWNER_ROLE : pystr := PyStr 1 "roles/owner".
Definition EDITOR_ROLE : pystr := PyStr 2 "roles/editor".
Definition VIEWER_ROLE : pystr := PyStr 3 "roles/viewer".

Definition _ASSIGNMENT_DEPRECATED_MSG : string :=
  "Assigning to '{}' is deprecated.  Replace with 'policy[{}] = members.".

(** ** Member factory helpers (static methods of [Policy]) *)

Definition user (email : string) : option string :=
  Format.percent "user:%s" [email].

Definition service_account (email : string) : option string :=
  Format.percent "serviceAccount:%s" [email].

Definition group (email : string) : option string :=
  Format.percent "group:%s" [email].

Definition domain (domain : string) : option string :=
  Format.percent "domain:%s" [domain].

Definition all_users : string := "allUsers".

Definition authenticated_users : string := "allAuthenticatedUsers".


(** ** Bindings and policies *)

(** A binding dict.  The wire format gives it the keys [role] and
    [members]; [__setitem__] can add a third key, [member], which is
    absent ([None] here) until then. *)
Record binding := Binding {
  role : pystr;
  members : list string;
  member : option (list string)
}.

Global Instance binding_eq_dec : EqDecision binding.
Proof. solve_decision. Defined.

(** [a == b] on binding dicts: the same keys with equal values.  The
    identity of the role object plays no part in it. *)
Definition binding_eqb (a b : binding) : bool :=
  py_str_eq (role a) (role b)
  && bool_decide (members a = members b)
  && bool_decide (member a = member b).

(** The object held in [Policy._bindings]: a list (the one made by
    [__init__], or the list of binding objects the caller or the decoded
    resource hands over), or the empty tuple [()] that [from_api_repr]
    falls back to when the resource has no bindings. *)
Inductive pyseq :=
  | PyList (items : list binding)
  | PyEmptyTuple.

Definition seq_items (s : pyseq) : list binding :=
  match s with PyList l => l | PyEmptyTuple => [] end.

(** The same sequence object after a dict inside it was mutated. *)
Definition seq_with_items (s : pyseq) (l : list binding) : pyseq :=
  match s with PyList _ => PyList l | PyEmptyTuple => PyEmptyTuple end.

Record Policy := mkPolicy {
  etag : option string;
  version : option Z;
  _bindings : pyseq
}.

Definition __init__ (etag : option string) (version : option Z) : Policy :=
  {| etag := etag; version := version; _bindings := PyList [] |}.

(** ** Exceptions, warnings and the state of a call *)

Inductive exn :=
  | InvalidOperationException (msg : string)
  | KeyError (key : pystr)
  | AttributeError (msg : string)
  | ValueError (msg : string).

Inductive warning_category := DeprecationWarning.

(** What a method call can read and change: the policy object it is
    called on and the warnings issued so far through [warnings.warn]
    (filtering and printing of warnings belong to the interpreter and
    are left out). *)
Record world := World {
  self : Policy;
  warned : list (warning_category * string)
}.

(** A method body: it ends in an exception or in a value, and in both
    cases leaves a state behind. *)
Definition M (A : Type) : Type := world -> (exn + A) * world.

Definition ret {A} (a : A) : M A := fun w => (inr a, w).

Definition bind {A B} (m : M A) (k : A -> M B) : M B :=
  fun w => match m w with
           | (inl e, w') => (inl e, w')
           | (inr a, w') => k a w'
           end.

Definition raise {A} (e : exn) : M A := fun w => (inl e, w).

Notation "x <- m ;; k" := (bind m (fun x => k))
  (at level 100, m at next level, right associativity).
Notation "m ;;; k" := (bind m (fun _ => k))
  (at level 100, right associativity).

Definition get_self : M Policy := fun w => (inr (self w), w).

Definition put_bindings (s : pyseq) : M unit :=
  fun w =>
    (inr tt,
     {| self := {| etag := etag (self w); version := version (self w);
                   _bindings := s |};
        warned := warned w |}).

Definition warnings_warn (msg : string) (cat : warning_category) : M unit :=
  fun w => (inr tt, {| self := self w; warned := warned w ++ [(cat, msg)] |}).

(** ** The mapping protocol of [Policy] *)

Definition __check_version__ : M unit :=
  p <- get_self ;;
  match version p with
  | Some v =>
      if bool_decide (v > 1)
      then raise (InvalidOperationException "TODO: insert migration message")
      else ret tt
  | None => ret tt
  end.

(** The generator expression is run to its end here: the roles in
    binding order. *)
Definition __iter__ : M (list pystr) :=
  __check_version__ ;;;
  p <- get_self ;;
  ret (map role (seq_items (_bindings p))).

Definition __len__ : M nat :=
  __check_version__ ;;;
  p <- get_self ;;
  ret (length (seq_items (_bindings p))).

(** A [set] or a [frozenset] of member strings. *)
Inductive pyset :=
  | PySet (s : gset string)
  | PyFrozenset (s : gset string).

Definition pyset_elems (s : pyset) : gset string :=
  match s with PySet s => s | PyFrozenset s => s end.

(** The loop of [__getitem__]: the first binding whose role is the key
    object decides. *)
Fixpoint getitem_loop (key : pystr) (bs : list binding) : gset string :=
  match bs with
  | [] => ∅
  | b :: rest =>
      if py_is (role b) key then list_to_set (members b)
      else getitem_loop key rest
  end.

Definition __getitem__ (key : pystr) : M pyset :=
  __check_version__ ;;;
  p <- get_self ;;
  ret (PySet (getitem_loop key (seq_items (_bindings p)))).

(** The loop of [__delitem__]: the binding it stops at, if any. *)
Fixpoint delitem_loop (key : pystr) (bs : list binding) : option binding :=
  match bs with
  | [] => None
  | b :: rest => if py_is (role b) key then Some b else delitem_loop key rest
  end.

(** [l.remove(x)]: drops the first item equal ([==]) to [x]; [None] is
    the [ValueError] of a list without such an item. *)
Fixpoint list_remove (x : binding) (l : list binding) : option (list binding) :=
  match l with
  | [] => None
  | y :: rest =>
      if binding_eqb y x then Some rest else (y ::.) <$> list_remove x rest
  end.

Definition seq_remove (x : binding) : M unit :=
  p <- get_self ;;
  match _bindings p with
  | PyList l =>
      match list_remove x l with
      | Some l' => put_bindings (PyList l')
      | None => raise (ValueError "list.remove(x): x not in list")
      end
  | PyEmptyTuple =>
      raise (AttributeError "'tuple' object has no attribute 'remove'")
  end.

Definition __delitem__ (key : pystr) : M unit :=
  __check_version__ ;;;
  p <- get_self ;;
  match delitem_loop key (seq_items (_bindings p)) with
  | Some b => seq_remove b
  | None => raise (KeyError key)
  end.

(** The [bindings] property. *)
Definition bindings : M pyseq :=
  p <- get_self ;; ret (_bindings p).

Definition bindings_setter (bindings : pyseq) : M unit :=
  put_bindings bindings.

(** [Mapping.get(key, default)] as inherited from [collections.abc]:
    [self[key]], with [default] returned on [KeyError]. *)
Inductive iterable :=
  | OfSet (s : pyset)
  | OfTuple (l : list string).

Definition iterable_elems (i : iterable) : gset string :=
  match i with OfSet s => pyset_elems s | OfTuple l => list_to_set l end.

Definition get (key : pystr) (default : iterable) : M iterable :=
  fun w => match __getitem__ key w with
           | (inl (KeyError _), w') => (inr default, w')
           | (inl e, w') => (inl e, w')
           | (inr s, w') => (inr (OfSet s), w')
           end.

(** The two nested loops shared by the getters [owners], [editors] and
    [viewers]: every member of every listed role is added to [result]. *)
Fixpoint collect (roles : list pystr) (result : gset string) : M (gset string) :=
  match roles with
  | [] => ret result
  | role :: rest =>
      ms <- get role (OfTuple []) ;;
      collect rest (result ∪ iterable_elems ms)
  end.

Definition _OWNER_ROLES : list pystr := [OWNER_ROLE].
Definition _EDITOR_ROLES : list pystr := [EDITOR_ROLE].
Definition _VIEWER_ROLES : list pystr := [VIEWER_ROLE].

Definition owners : M pyset :=
  result <- collect _OWNER_ROLES ∅ ;; ret (PyFrozenset result).

Definition editors : M pyset :=
  result <- collect _EDITOR_ROLES ∅ ;; ret (PyFrozenset result).

Definition viewers : M pyset :=
  result <- collect _VIEWER_ROLES ∅ ;; ret (PyFrozenset result).

(** [_ASSIGNMENT_DEPRECATED_MSG.format(attr, role)] *)
Definition deprecated_msg (attr : string) (role : pystr) : M string :=
  match Format.format _ASSIGNMENT_DEPRECATED_MSG [attr; sval role] with
  | Some msg => ret msg
  | None => raise (ValueError "format")
  end.

Section Mutation.

(** [list(set(value))] lists a set in an order that Python leaves
    open.  The order is a parameter; the properties that depend on it
    assume that the list holds each element of the set once. *)
Variable set_order : gset string -> list string.

(** The loop of [__setitem__]: at the first binding whose role is the
    key object, [binding['member'] = value]; [None] when the loop runs
    to its end. *)
Fixpoint setitem_loop (key : pystr) (value : list string) (bs : list binding)
  : option (list binding) :=
  match bs with
  | [] => None
  | b :: rest =>
      if py_is (role b) key
      then Some ({| role := role b; members := members b;
                    member := Some value |} :: rest)
      else (b ::.) <$> setitem_loop key value rest
  end.

Definition seq_append (b : binding) : M unit :=
  p <- get_self ;;
  match _bindings p with
  | PyList l => put_bindings (PyList (l ++ [b]))
  | PyEmptyTuple =>
      raise (AttributeError "'tuple' object has no attribute 'append'")
  end.

Definition __setitem__ (key : pystr) (value : list string) : M unit :=
  __check_version__ ;;;
  let value := set_order (list_to_set value) in
  p <- get_self ;;
  match setitem_loop key value (seq_items (_bindings p)) with
  | Some bs' => put_bindings (seq_with_items (_bindings p) bs')
  | None =>
      seq_append {| role := key; members := value; member := None |}
  end.

Definition owners_setter (value : list string) : M unit :=
  msg <- deprecated_msg "owners" OWNER_ROLE ;;
  warnings_warn msg DeprecationWarning ;;;
  __setitem__ OWNER_ROLE value.

Definition editors_setter (value : list string) : M unit :=
  msg <- deprecated_msg "editors" EDITOR_ROLE ;;
  warnings_warn msg DeprecationWarning ;;;
  __setitem__ EDITOR_ROLE value.

Definition viewers_setter (value : list string) : M unit :=
  msg <- deprecated_msg "viewers" VIEWER_ROLE ;;
  warnings_warn msg DeprecationWarning ;;;
  __setitem__ VIEWER_ROLE value.

End Mutation.

(** ** JSON resources *)

(** A value of a policy resource: [null], an integer, a string, or a
    sequence of binding objects. *)
Inductive jvalue :=
  | JNull
  | JInt (z : Z)
  | JStr (s : string)
  | JSeq (bs : pyseq).

Global Instance pyseq_eq_dec : EqDecision pyseq.
Proof. solve_decision. Defined.

Global Instance jvalue_eq_dec : EqDecision jvalue.
Proof. solve_decision. Defined.

(** [resource.get(k)] read at the type the wire format gives the field.
    [Policy] is typed after its docstring ([Optional[int]],
    [Optional[str]], a sequence of bindings): [null] and a missing key
    both read as [None]; a value of a foreign type has no counterpart in
    the typed record and is outside the resources described here. *)
Definition get_int (k : string) (r : gmap string jvalue) : option Z :=
  match r !! k with Some (JInt z) => Some z | _ => None end.

Definition get_str (k : string) (r : gmap string jvalue) : option string :=
  match r !! k with Some (JStr s) => Some s | _ => None end.

Definition get_seq (k : string) (default : pyseq) (r : gmap string jvalue) : pyseq :=
  match r !! k with Some (JSeq s) => s | _ => default end.

Definition from_api_repr (resource : gmap string jvalue) : Policy :=
  let version' := get_int "version" resource in
  let etag' := get_str "etag" resource in
  let policy := __init__ etag' version' in
  {| etag := etag policy; version := version policy;
     _bindings := get_seq "bindings" PyEmptyTuple resource |}.

Definition to_api_repr (p : Policy) : gmap string jvalue :=
  let resource : gmap string jvalue := ∅ in
  let resource :=
    match etag p with Some e => <["etag" := JStr e]> resource | None => resource end in
  let resource :=
    match version p with Some v => <["version" := JInt v]> resource | None => resource end in
  let resource :=
    match seq_items (_bindings p) with
    | [] => resource
    | _ :: _ => <["bindings" := JSeq (_bindings p)]> resource
    end in
  resource.

(** ** Vocabulary of the statements *)

(** The version gate lets a call through: [version] is [None] or at
    most 1. *)
Definition gate_permits (p : Policy) : bool :=
  match version p with
  | Some v => bool_decide (v <= 1)
  | None => true
  end.

(** The number of bindings whose role is the object [key]. *)
Definition count_is (key : pystr) (bs : list binding) : nat :=
  length (filter (fun b => py_is (role b) key = true) bs).

(** The number of bindings whose role reads [r]. *)
Definition count_eq (r : string) (bs : list binding) : nat :=
  length (filter (fun b => sval (role b) = r) bs).



(** [policy[key] = value] followed by [policy[key]]. *)
Definition set_then_get (set_order : gset string -> list string)
    (key : pystr) (value : list string) : M pyset :=
  __setitem__ set_order key value ;;; __getitem__ key.

(** The members [policy[r]] yields in the state [w] (nothing when the
    call raises). *)
Definition members_of (w : world) (r : pystr) : gset string :=
  match (__getitem__ r w).1 with
  | inr s => pyset_elems s
  | inl _ => ∅
  end.

(** The binding sequence of a state. *)
Definition items_of (w : world) : list binding :=
  seq_items (_bindings (self w)).

(** The same world with another binding sequence. *)
Definition with_bindings (w : world) (s : pyseq) : world :=
  {| self := {| etag := etag (self w); version := version (self w);
                _bindings := s |};
     warned := warned w |}.

(** A resource in the wire format: at most the keys [etag], [version]
    and [bindings], holding a string, an integer and a list of
    bindings. *)
Definition wire_format (r : gmap string jvalue) : Prop :=
  dom r ⊆ ({["etag"; "version"; "bindings"]} : gset string)
  /\ (forall v, r !! "etag" = Some v -> exists s, v = JStr s)
  /\ (forall v, r !! "version" = Some v -> exists z, v = JInt z)
  /\ (forall v, r !! "bindings" = Some v -> exists l, v = JSeq (PyList l)).

(** No binding of [bs] has the object [key] as its role. *)
Definition absent (key : pystr) (bs : list binding) : Prop :=
  forall b, b ∈ bs -> py_is (role b) key = false.

(** The binding [__setitem__] leaves behind after
    [binding['member'] = value]. *)
Definition with_member (b : binding) (value : list string) : binding :=
  {| role := role b; members := members b; member := Some value |}.

(** The exception raised by [__check_version__]. *)
Definition migration_error : exn :=
  InvalidOperationException "TODO: insert migration message".

(** ** Sample policies *)

Definition world_of (p : Policy) : world := {| self := p; warned := [] |}.

(** An empty policy of version 2. *)
Definition policy_v2 : Policy := __init__ None (Some 2).

(** A policy of version 1 with one binding for the owner role. *)
Definition policy_owner : Policy :=
  {| etag := Some "BwWWja0YfJA="; version := Some 1;
     _bindings := PyList [ {| role := OWNER_ROLE;
                              members := ["user:a@x.com"];
                              member := None |} ] |}.

(** A resource with an etag and one binding. *)
Definition resource_owner : gmap string jvalue :=
  <["etag" := JStr "BwWWja0YfJA="]>
    (<["bindings" := JSeq (_bindings policy_owner)]> ∅).

(** Two distinct string objects that both read [roles/owner]; neither
    is the module constant. *)
Definition owner_key_a : pystr := PyStr 10 "roles/owner".

(** ** Vocabulary of the further properties *)

(** What a resource shows of a binding: its role and its [members]. *)
Definition visible (b : binding) : pystr * list string :=
  (role b, members b).

(** The texts of the roles of a binding sequence, in order. *)
Definition role_texts (bs : list binding) : list string :=
  (fun b => sval (role b)) <$> bs.

(** The binding [policy[key] = value] appends for a new role. *)
Definition new_binding (set_order : gset string -> list string)
    (key : pystr) (value : list string) : binding :=
  {| role := key; members := set_order (list_to_set value); member := None |}.

(** [policy[key] = value] followed by [del policy[key]]. *)
Definition set_then_del (set_order : gset string -> list string)
    (key : pystr) (value : list string) : M unit :=
  __setitem__ set_order key value ;;; __delitem__ key.

(** Equal role texts are one object: every stored role that reads like
    [key] is the object [key]. *)
Definition shares_roles (key : pystr) (bs : list binding) : Prop :=
  forall b, b ∈ bs -> sval (role b) = sval key -> py_is (role b) key = true.

(** A policy of version 1 with one binding whose role is a string object
    of its own, as a decoded resource has it. *)
Definition policy_decoded : Policy :=
  {| etag := None; version := Some 1;
     _bindings := PyList [ {| role := PyStr 20 "roles/viewer";
                              members := ["group:g@x.com"];
                              member := None |} ] |}.

(** A policy in which a binding read from a resource equals, as a
    dict, the binding stored behind it under the owner constant. *)
Definition policy_twins : Policy :=
  {| etag := None; version := None;
     _bindings := PyList [ {| role := PyStr 20 "roles/owner";
                              members := ["user:a@x.com"];
                              member := None |};
                           {| role := OWNER_ROLE;
                              members := ["user:a@x.com"];
                              member := None |} ] |}.

(** The warning an assignment to the legacy attribute [attr] issues. *)
Definition deprecation (attr : string) (role : pystr) : warning_category * string :=
  (DeprecationWarning,
   "Assigning to '" +:+ attr +:+ "' is deprecated.  Replace with 'policy["
     +:+ sval role +:+ "] = members.").

(** The same world with one more warning issued. *)
Definition with_warning (w : world) (x : warning_category * string) : world :=
  {| self := self w; warned := warned w ++ [x] |}.

(** A resource as the service returns it: one binding for
    [roles/owner], whose role is a string object of the decoder. *)
Definition resource_decoded : gmap string jvalue :=
  {[ "bindings" :=
       JSeq (PyList [ {| role := PyStr 20 "roles/owner";
                         members := ["user:a@x.com"];
                         member := None |} ]) ]}.

(** [policy[key] = value], then [del policy[key]], then [policy[key]]. *)
Definition set_del_get (set_order : gset string -> list string)
    (key : pystr) (value : list string) : M pyset :=
  __setitem__ set_order key value ;;; __delitem__ key ;;; __getitem__ key.

(** * Properties *)

(** ** Formatting *)

Lemma append_empty_r (s : string) : s +:+ "" = s.
Proof.
  induction s as [|c s IH]; [done |].
  change (String c (s +:+ "") = String c s). by rewrite IH.
Qed.

(** C10: the member factory helpers are plain functions of their
    argument: [user], [service_account], [group] and [domain] return the
    argument behind the prefixes [user:], [serviceAccount:], [group:]
    and [domain:], and [all_users] and [authenticated_users] are the
    constants [allUsers] and [allAuthenticatedUsers]. *)
Theorem factory_helpers :
  (forall e, user e = Some ("user:" +:+ e))
  /\ (forall e, service_account e = Some ("serviceAccount:" +:+ e))
  /\ (forall e, group e = Some ("group:" +:+ e))
  /\ (forall d, domain d = Some ("domain:" +:+ d))
  /\ all_users = "allUsers"
  /\ authenticated_users = "allAuthenticatedUsers".
Proof.
  repeat split; try reflexivity; intros e;
    unfold user, service_account, group, domain; simpl;
    by rewrite append_empty_r.
Qed.

Lemma deprecated_msg_run (attr : string) (r : pystr) (w : world) :
  deprecated_msg attr r w =
    (inr ("Assigning to '" +:+ attr +:+ "' is deprecated.  Replace with 'policy["
          +:+ sval r +:+ "] = members."), w).
Proof. reflexivity. Qed.

(** ** The version gate *)

Lemma gate_permits_spec (p : Policy) :
  gate_permits p = true <-> version p = None \/ exists v, version p = Some v /\ v <= 1.
Proof.
  unfold gate_permits. destruct (version p) as [v|]; split.
  - intros H%bool_decide_eq_true. right. eauto.
  - intros [?|(v' & [= ->] & ?)]; [done | by apply bool_decide_eq_true].
  - by left.
  - done.
Qed.

Lemma check_version_permits (w : world) :
  gate_permits (self w) = true -> __check_version__ w = (inr tt, w).
Proof.
  unfold gate_permits, __check_version__, bind, get_self.
  destruct (version (self w)) as [v|]; [|done].
  intros H%bool_decide_eq_true.
  rewrite bool_decide_eq_false_2; [done | lia].
Qed.

Lemma check_version_refuses (w : world) (v : Z) :
  version (self w) = Some v -> 2 <= v ->
  __check_version__ w = (inl migration_error, w).
Proof.
  intros Hv Hge. unfold __check_version__, bind, get_self. rewrite Hv.
  rewrite bool_decide_eq_true_2; [done | lia].
Qed.

Lemma check_version_closed (w : world) :
  gate_permits (self w) = false ->
  __check_version__ w = (inl migration_error, w).
Proof.
  unfold gate_permits. destruct (version (self w)) as [v|] eqn:Hv; [|done].
  intros H%bool_decide_eq_false. apply (check_version_refuses w v Hv). lia.
Qed.

(** What each method does once the gate has let it through. *)
Section Permitted.

Variable set_order : gset string -> list string.
Variable w : world.
Hypothesis Hgate : gate_permits (self w) = true.

Lemma iter_permitted :
  __iter__ w = (inr (map role (seq_items (_bindings (self w)))), w).
Proof. unfold __iter__, bind. by rewrite check_version_permits. Qed.

Lemma len_permitted :
  __len__ w = (inr (length (seq_items (_bindings (self w)))), w).
Proof. unfold __len__, bind. by rewrite check_version_permits. Qed.

Lemma getitem_permitted (key : pystr) :
  __getitem__ key w =
    (inr (PySet (getitem_loop key (seq_items (_bindings (self w))))), w).
Proof. unfold __getitem__, bind. by rewrite check_version_permits. Qed.

Lemma delitem_permitted (key : pystr) :
  __delitem__ key w =
    match delitem_loop key (seq_items (_bindings (self w))) with
    | Some b => seq_remove b w
    | None => (inl (KeyError key), w)
    end.
Proof.
  unfold __delitem__, bind. rewrite check_version_permits by done.
  simpl. by destruct (delitem_loop _ _).
Qed.

Lemma setitem_permitted (key : pystr) (value : list string) :
  __setitem__ set_order key value w =
    let value' := set_order (list_to_set value) in
    match setitem_loop key value' (seq_items (_bindings (self w))) with
    | Some bs' => (inr tt, with_bindings w (seq_with_items (_bindings (self w)) bs'))
    | None => seq_append {| role := key; members := value'; member := None |} w
    end.
Proof.
  unfold __setitem__, bind. rewrite check_version_permits by done.
  simpl. by destruct (setitem_loop _ _ _).
Qed.

End Permitted.

Lemma seq_remove_not_gate (b : binding) (w : world) (msg : string) :
  (seq_remove b w).1 ≠ inl (InvalidOperationException msg).
Proof.
  unfold seq_remove, bind, get_self.
  destruct (_bindings (self w)) as [l|]; [|done].
  by destruct (list_remove b l).
Qed.

Lemma seq_append_not_gate (b : binding) (w : world) (msg : string) :
  (seq_append b w).1 ≠ inl (InvalidOperationException msg).
Proof.
  unfold seq_append, bind, get_self.
  by destruct (_bindings (self w)).
Qed.

(** C3, counterexample: on a policy of version 2 the [bindings] getter
    returns the binding list and the setter stores one; neither raises
    the version error. *)
Lemma bindings_accessor_not_gated :
  bindings (world_of policy_v2) = (inr (PyList []), world_of policy_v2)
  /\ (bindings_setter (_bindings policy_owner) (world_of policy_v2)).1 = inr tt
  /\ ~ (forall (w : world) (v : Z),
          version (self w) = Some v -> 2 <= v ->
          exists msg, (bindings w).1 = inl (InvalidOperationException msg)).
Proof.
  split; [done | split; [done |]].
  intros H. destruct (H (world_of policy_v2) 2) as [msg Hmsg]; [done | lia |].
  discriminate Hmsg.
Qed.

(** C3, amended: on a policy whose version is 2 or more, each call of
    the mapping protocol (get, set, delete, iterate, length) ends in
    [InvalidOperationException] and leaves the policy as it was; with
    version 1 or no version none of them raises that exception; the
    [bindings] getter and setter never look at the version and always
    succeed. *)
Theorem version_gate (set_order : gset string -> list string)
    (w : world) (key : pystr) (value : list string) :
  (forall v, version (self w) = Some v -> 2 <= v ->
     __getitem__ key w = (inl migration_error, w)
     /\ __setitem__ set_order key value w = (inl migration_error, w)
     /\ __delitem__ key w = (inl migration_error, w)
     /\ __iter__ w = (inl migration_error, w)
     /\ __len__ w = (inl migration_error, w))
  /\ (version (self w) = None \/ version (self w) = Some 1 ->
      forall msg,
        (__getitem__ key w).1 ≠ inl (InvalidOperationException msg)
        /\ (__setitem__ set_order key value w).1 ≠ inl (InvalidOperationException msg)
        /\ (__delitem__ key w).1 ≠ inl (InvalidOperationException msg)
        /\ (__iter__ w).1 ≠ inl (InvalidOperationException msg)
        /\ (__len__ w).1 ≠ inl (InvalidOperationException msg))
  /\ bindings w = (inr (_bindings (self w)), w)
  /\ (forall s, bindings_setter s w = (inr tt, with_bindings w s)).
Proof.
  split; [|split; [|done]].
  - intros v Hv Hge.
    unfold __getitem__, __setitem__, __delitem__, __iter__, __len__, bind.
    by rewrite (check_version_refuses w v Hv Hge).
  - intros Hv msg.
    assert (gate_permits (self w) = true) as Hgate.
    { apply gate_permits_spec. destruct Hv as [Hv|Hv]; [by left|].
      right. exists 1. split; [done | lia]. }
    rewrite getitem_permitted, (setitem_permitted set_order), delitem_permitted,
      iter_permitted, len_permitted by done.
    repeat split; try done.
    + simpl. destruct (setitem_loop _ _ _); [done|]. apply seq_append_not_gate.
    + destruct (delitem_loop _ _); [|done]. apply seq_remove_not_gate.
Qed.

(** The gate at work: closed on version 2, open on version 1. *)
Lemma version_gate_witness :
  __getitem__ OWNER_ROLE (world_of policy_v2)
    = (inl migration_error, world_of policy_v2)
  /\ (__len__ (world_of policy_owner)).1
       ≠ inl (InvalidOperationException "TODO: insert migration message").
Proof.
  split.
  - destruct (version_gate elements (world_of policy_v2) OWNER_ROLE []) as [H _].
    destruct (H 2 eq_refl) as [Hget _]; [discriminate | exact Hget].
  - destruct (version_gate elements (world_of policy_owner) OWNER_ROLE [])
      as (_ & H & _).
    by destruct (H (or_intror eq_refl) "TODO: insert migration message")
      as (_ & _ & _ & _ & Hlen).
Defined.

(** ** Export and import *)

Lemma to_api_repr_etag (p : Policy) :
  to_api_repr p !! "etag" = JStr <$> etag p.
Proof.
  unfold to_api_repr.
  destruct (etag p), (version p), (seq_items (_bindings p)); by simplify_map_eq.
Qed.

Lemma to_api_repr_version (p : Policy) :
  to_api_repr p !! "version" = JInt <$> version p.
Proof.
  unfold to_api_repr.
  destruct (etag p), (version p), (seq_items (_bindings p)); by simplify_map_eq.
Qed.

Lemma to_api_repr_bindings (p : Policy) :
  to_api_repr p !! "bindings" =
    match seq_items (_bindings p) with
    | [] => None
    | _ :: _ => Some (JSeq (_bindings p))
    end.
Proof.
  unfold to_api_repr.
  destruct (etag p), (version p), (seq_items (_bindings p)); by simplify_map_eq.
Qed.

Lemma to_api_repr_other (p : Policy) (k : string) :
  k ≠ "etag" -> k ≠ "version" -> k ≠ "bindings" -> to_api_repr p !! k = None.
Proof.
  intros Hk1 Hk2 Hk3. unfold to_api_repr.
  destruct (etag p), (version p), (seq_items (_bindings p));
    rewrite ?lookup_insert_ne by done; apply lookup_empty.
Qed.

(** C6: the resource made by [to_api_repr] has the key [etag] exactly
    when the etag is not [None], the key [version] exactly when the
    version is not [None], and the key [bindings] exactly when the
    binding sequence is not empty; it has no other key, and no key
    holds [null]. *)
Theorem to_api_repr_keys (p : Policy) :
  ("etag" ∈ dom (to_api_repr p) <-> etag p ≠ None)
  /\ ("version" ∈ dom (to_api_repr p) <-> version p ≠ None)
  /\ ("bindings" ∈ dom (to_api_repr p) <-> seq_items (_bindings p) ≠ [])
  /\ (forall k, k ∈ dom (to_api_repr p) ->
        k = "etag" \/ k = "version" \/ k = "bindings")
  /\ (forall k, to_api_repr p !! k ≠ Some JNull).
Proof.
  repeat split.
  - intros [v Hv]%elem_of_dom. rewrite to_api_repr_etag in Hv.
    by destruct (etag p).
  - intros H. apply elem_of_dom. rewrite to_api_repr_etag.
    destruct (etag p); [by eexists | done].
  - intros [v Hv]%elem_of_dom. rewrite to_api_repr_version in Hv.
    by destruct (version p).
  - intros H. apply elem_of_dom. rewrite to_api_repr_version.
    destruct (version p); [by eexists | done].
  - intros [v Hv]%elem_of_dom. rewrite to_api_repr_bindings in Hv.
    by destruct (seq_items (_bindings p)).
  - intros H. apply elem_of_dom. rewrite to_api_repr_bindings.
    destruct (seq_items (_bindings p)); [done | by eexists].
  - intros k [v Hv]%elem_of_dom.
    destruct (decide (k = "etag")) as [|H1]; [by left|].
    destruct (decide (k = "version")) as [|H2]; [by right; left|].
    destruct (decide (k = "bindings")) as [|H3]; [by right; right|].
    by rewrite to_api_repr_other in Hv.
  - intros k.
    destruct (decide (k = "etag")) as [->|H1].
    { rewrite to_api_repr_etag. by destruct (etag p). }
    destruct (decide (k = "version")) as [->|H2].
    { rewrite to_api_repr_version. by destruct (version p). }
    destruct (decide (k = "bindings")) as [->|H3].
    { rewrite to_api_repr_bindings. by destruct (seq_items (_bindings p)). }
    by rewrite to_api_repr_other.
Qed.

(** C5: a resource in the wire format whose [bindings] are present and
    not empty comes back unchanged from [from_api_repr] followed by
    [to_api_repr]: the same keys, the same etag and version, and the
    same bindings with their members in the same order. *)
Theorem api_repr_round_trip (r : gmap string jvalue) :
  wire_format r ->
  (exists b l, r !! "bindings" = Some (JSeq (PyList (b :: l)))) ->
  to_api_repr (from_api_repr r) = r.
Proof.
  intros (Hdom & Hetag & Hversion & _) (b & l & Hb).
  apply map_eq. intros k.
  destruct (decide (k = "etag")) as [->|H1].
  { rewrite to_api_repr_etag. unfold from_api_repr, get_str. simpl.
    destruct (r !! "etag") as [v|] eqn:E; [|done].
    by destruct (Hetag v eq_refl) as [s ->]. }
  destruct (decide (k = "version")) as [->|H2].
  { rewrite to_api_repr_version. unfold from_api_repr, get_int. simpl.
    destruct (r !! "version") as [v|] eqn:E; [|done].
    by destruct (Hversion v eq_refl) as [z ->]. }
  destruct (decide (k = "bindings")) as [->|H3].
  { rewrite to_api_repr_bindings. unfold from_api_repr, get_seq. simpl.
    by rewrite Hb. }
  rewrite to_api_repr_other by done.
  symmetry. apply not_elem_of_dom. intros Hin%Hdom.
  rewrite !elem_of_union, !elem_of_singleton in Hin. tauto.
Qed.

Lemma resource_owner_wire_format : wire_format resource_owner.
Proof.
  unfold wire_format, resource_owner. repeat split.
  - rewrite !dom_insert_L, dom_empty_L. intros k.
    rewrite !elem_of_union, !elem_of_singleton, elem_of_empty. tauto.
  - intros v Hv. vm_compute in Hv. injection Hv as <-. by eexists.
  - intros v Hv. vm_compute in Hv. discriminate Hv.
  - intros v Hv. vm_compute in Hv. injection Hv as <-. by eexists.
Defined.

Lemma api_repr_round_trip_witness :
  to_api_repr (from_api_repr resource_owner) = resource_owner.
Proof.
  apply api_repr_round_trip.
  - exact resource_owner_wire_format.
  - eexists _, _. by vm_compute.
Defined.

(** ** The three loops over the bindings *)

Lemma absent_nil (key : pystr) : absent key [].
Proof. intros b Hb. by apply elem_of_nil in Hb. Qed.

Lemma absent_cons (key : pystr) (b : binding) (bs : list binding) :
  absent key (b :: bs) <-> py_is (role b) key = false /\ absent key bs.
Proof.
  unfold absent. split.
  - intros H. split; [apply H; left | intros b' Hb'; apply H; by right].
  - intros [Hb Hbs] b' [->|Hb']%elem_of_cons; [done | by apply Hbs].
Qed.

Lemma getitem_loop_absent (key : pystr) (bs : list binding) :
  absent key bs -> getitem_loop key bs = ∅.
Proof.
  induction bs as [|b bs IH]; [done|].
  intros [Hb Hbs]%absent_cons. simpl. rewrite Hb. by apply IH.
Qed.

Lemma delitem_loop_None (key : pystr) (bs : list binding) :
  delitem_loop key bs = None <-> absent key bs.
Proof.
  induction bs as [|b bs IH]; simpl.
  - split; [intros _; apply absent_nil | done].
  - rewrite absent_cons. destruct (py_is (role b) key).
    + split; [done | by intros [? _]].
    + rewrite IH. split; [by intros ? | by intros [_ ?]].
Qed.

Lemma setitem_loop_None (key : pystr) (value : list string) (bs : list binding) :
  setitem_loop key value bs = None <-> absent key bs.
Proof.
  induction bs as [|b bs IH]; simpl.
  - split; [intros _; apply absent_nil | done].
  - rewrite absent_cons. destruct (py_is (role b) key).
    + split; [done | by intros [? _]].
    + rewrite <- IH. destruct (setitem_loop key value bs); simpl.
      * split; [done | by intros [_ ?]].
      * by split.
Qed.

(** The three loops stop at the same binding: the first one whose role
    is the key object. *)
Lemma delitem_loop_Some (key : pystr) (bs : list binding) (b : binding) :
  delitem_loop key bs = Some b <->
  exists l1 l2, bs = l1 ++ b :: l2 /\ absent key l1 /\ py_is (role b) key = true.
Proof.
  revert b. induction bs as [|b' bs IH]; intros b; simpl.
  - split; [done | intros (l1 & l2 & H & _); by destruct l1].
  - destruct (py_is (role b') key) eqn:E.
    + split.
      * intros [= <-]. exists [], bs. split; [done | split; [apply absent_nil | done]].
      * intros (l1 & l2 & H & Habs & Hb). destruct l1 as [|x l1].
        -- by injection H as -> _.
        -- injection H as -> _. apply absent_cons in Habs as [Hx _]. congruence.
    + rewrite IH. split.
      * intros (l1 & l2 & -> & Habs & Hb). exists (b' :: l1), l2.
        split; [done | split; [by apply absent_cons | done]].
      * intros (l1 & l2 & H & Habs & Hb). destruct l1 as [|x l1].
        -- injection H as -> _. congruence.
        -- injection H as -> ->. apply absent_cons in Habs as [_ Habs].
           by exists l1, l2.
Qed.

Lemma getitem_loop_first (key : pystr) (l1 l2 : list binding) (b : binding) :
  absent key l1 -> py_is (role b) key = true ->
  getitem_loop key (l1 ++ b :: l2) = list_to_set (members b).
Proof.
  intros Habs Hb. induction l1 as [|x l1 IH]; simpl.
  - by rewrite Hb.
  - apply absent_cons in Habs as [Hx Habs]. rewrite Hx. by apply IH.
Qed.

Lemma setitem_loop_first (key : pystr) (value : list string)
    (l1 l2 : list binding) (b : binding) :
  absent key l1 -> py_is (role b) key = true ->
  setitem_loop key value (l1 ++ b :: l2) = Some (l1 ++ with_member b value :: l2).
Proof.
  intros Habs Hb. induction l1 as [|x l1 IH]; simpl.
  - by rewrite Hb.
  - apply absent_cons in Habs as [Hx Habs]. rewrite Hx, IH by done. done.
Qed.

Lemma getitem_loop_app_absent (key : pystr) (l1 l2 : list binding) :
  absent key l1 -> getitem_loop key (l1 ++ l2) = getitem_loop key l2.
Proof.
  intros Habs. induction l1 as [|x l1 IH]; [done|]. simpl.
  apply absent_cons in Habs as [Hx Habs]. rewrite Hx. by apply IH.
Qed.

Lemma py_is_refl (k : pystr) : py_is k k = true.
Proof. by apply bool_decide_eq_true. Qed.

Lemma binding_eqb_refl (b : binding) : binding_eqb b b = true.
Proof.
  unfold binding_eqb, py_str_eq. by rewrite !bool_decide_eq_true_2.
Qed.

Lemma binding_eqb_true (a b : binding) :
  binding_eqb a b = true <->
  sval (role a) = sval (role b) /\ members a = members b /\ member a = member b.
Proof.
  unfold binding_eqb, py_str_eq.
  rewrite !andb_true_iff, !bool_decide_eq_true. tauto.
Qed.

(** [l.remove(b)] on a list that holds [b]: one item goes, the first
    that equals [b]; the others keep their places. *)
Lemma list_remove_elem (b : binding) (l : list binding) :
  b ∈ l ->
  exists l1 e l2,
    l = l1 ++ e :: l2
    /\ binding_eqb e b = true
    /\ Forall (fun x => binding_eqb x b = false) l1
    /\ list_remove b l = Some (l1 ++ l2).
Proof.
  induction l as [|y l IH]; [by intros ?%elem_of_nil|].
  intros Hb. simpl. destruct (binding_eqb y b) eqn:E.
  - exists [], y, l. by repeat split.
  - apply elem_of_cons in Hb as [->|Hb]; [by rewrite binding_eqb_refl in E|].
    destruct (IH Hb) as (l1 & e & l2 & -> & He & Hl1 & ->).
    exists (y :: l1), e, l2. repeat split; [done | by constructor].
Qed.

(** ** Assignment followed by lookup *)

Section SetThenGet.

Variable set_order : gset string -> list string.
Hypothesis set_order_perm : forall s, set_order s ≡ₚ elements s.

Lemma list_to_set_order (s : gset string) : list_to_set (set_order s) = s.
Proof.
  rewrite (list_to_set_perm_L _ _ (set_order_perm s)).
  apply list_to_set_elements_L.
Qed.

(** On a list without a binding for the key object, the assignment
    appends one and the lookup returns the members given, without
    duplicates. *)
Lemma set_then_get_fresh (w : world) (key : pystr) (value : list string)
    (l : list binding) :
  gate_permits (self w) = true ->
  _bindings (self w) = PyList l ->
  absent key l ->
  set_then_get set_order key value w =
    (inr (PySet (list_to_set value)),
     with_bindings w
       (PyList (l ++ [ {| role := key;
                          members := set_order (list_to_set value);
                          member := None |} ]))).
Proof.
  intros Hgate Hl Habs. unfold set_then_get, bind.
  rewrite setitem_permitted by done. rewrite Hl. simpl.
  rewrite (proj2 (setitem_loop_None key _ l) Habs).
  unfold seq_append, bind, get_self. rewrite Hl. simpl.
  rewrite getitem_permitted by done. simpl.
  rewrite getitem_loop_app_absent by done. simpl.
  rewrite py_is_refl, list_to_set_order. done.
Qed.

End SetThenGet.

(** The example of the specification: duplicates in the assigned list
    do not show in the set read back from a fresh role. *)
Example set_then_get_example :
  (set_then_get elements OWNER_ROLE
     ["user:a@x.com"; "user:a@x.com"; "group:g@x.com"]
     (world_of (__init__ None None))).1
  = inr (PySet {["user:a@x.com"; "group:g@x.com"]}).
Proof.
  rewrite (set_then_get_fresh elements (fun s => reflexivity _) _ _ _ [])
    by (done || apply absent_nil).
  simpl. apply f_equal, f_equal, set_eq. intros x.
  rewrite !elem_of_union, !elem_of_singleton, elem_of_empty. tauto.
Qed.

(** On a list that already has a binding for the key object, the
    assignment writes the key [member] of that binding and the lookup
    still returns what its [members] held before. *)
Lemma set_then_get_existing (set_order : gset string -> list string)
    (w : world) (key : pystr) (value : list string) (b : binding) :
  gate_permits (self w) = true ->
  delitem_loop key (items_of w) = Some b ->
  (set_then_get set_order key value w).1 = inr (PySet (list_to_set (members b))).
Proof.
  intros Hgate (l1 & l2 & Hl & Habs & Hb)%delitem_loop_Some.
  unfold items_of in Hl. unfold set_then_get, bind.
  rewrite setitem_permitted by done. simpl. rewrite Hl.
  rewrite setitem_loop_first by done.
  rewrite getitem_permitted by done. simpl.
  destruct (_bindings (self w)) as [l|]; simpl in *.
  - by rewrite (getitem_loop_first key l1 l2 (with_member b _)).
  - by destruct l1.
Qed.

(** C1, the failing run: a policy of version 1 holds the binding
    [roles/owner -> user:a@x.com]; after
    [policy[OWNER_ROLE] = ["user:b@x.com"]] the lookup
    [policy[OWNER_ROLE]] still returns [{user:a@x.com}], not the
    members just assigned. *)
Theorem set_then_get_stale (set_order : gset string -> list string) :
  (set_then_get set_order OWNER_ROLE ["user:b@x.com"] (world_of policy_owner)).1
    = inr (PySet {["user:a@x.com"]})
  /\ ({["user:a@x.com"]} : gset string) ≠ list_to_set ["user:b@x.com"].
Proof.
  split.
  - rewrite (set_then_get_existing set_order _ _ _
               {| role := OWNER_ROLE; members := ["user:a@x.com"]; member := None |})
      by done.
    simpl. by rewrite (right_id_L ∅ (∪)).
  - intros H.
    assert ("user:a@x.com" ∈ (list_to_set ["user:b@x.com"] : gset string)) as Hin
      by (rewrite <- H; by apply elem_of_singleton).
    simpl in Hin. rewrite elem_of_union, elem_of_singleton, elem_of_empty in Hin.
    by destruct Hin.
Qed.

(** C8, the failing run in general: a resource without the key
    [bindings] gives a policy whose bindings are the tuple [()]; if its
    version lets calls through, every assignment [policy[key] = value]
    ends in [AttributeError] and the policy stays as it was. *)
Theorem setitem_without_bindings (set_order : gset string -> list string)
    (r : gmap string jvalue) (key : pystr) (value : list string) :
  r !! "bindings" = None ->
  gate_permits (from_api_repr r) = true ->
  __setitem__ set_order key value (world_of (from_api_repr r)) =
    (inl (AttributeError "'tuple' object has no attribute 'append'"),
     world_of (from_api_repr r)).
Proof.
  intros Hr Hgate. rewrite setitem_permitted by done.
  unfold from_api_repr, get_seq. simpl. by rewrite Hr.
Qed.

Lemma setitem_without_bindings_witness :
  __setitem__ elements OWNER_ROLE ["user:a@x.com"] (world_of (from_api_repr ∅)) =
    (inl (AttributeError "'tuple' object has no attribute 'append'"),
     world_of (from_api_repr ∅)).
Proof. apply setitem_without_bindings; reflexivity. Defined.

(** ** Lookup by the identity of the role object *)

(** C9: a binding is found only through the very string object stored as
    its role.  On a policy that holds a binding whose role reads like
    the key while no stored role is the key object itself, [policy[key]]
    is the empty set, [policy[key] = value] appends a binding, after
    which two bindings read that role, and [del policy[key]] raises
    [KeyError] and changes nothing. *)
Theorem role_lookup_by_identity (set_order : gset string -> list string)
    (w : world) (key : pystr) (value : list string) (l : list binding) :
  gate_permits (self w) = true ->
  _bindings (self w) = PyList l ->
  (exists b, b ∈ l /\ sval (role b) = sval key) ->
  absent key l ->
  let new := {| role := key; members := set_order (list_to_set value);
                member := None |} in
  __getitem__ key w = (inr (PySet ∅), w)
  /\ __setitem__ set_order key value w = (inr tt, with_bindings w (PyList (l ++ [new])))
  /\ (2 <= count_eq (sval key) (l ++ [new]))%nat
  /\ __delitem__ key w = (inl (KeyError key), w).
Proof.
  intros Hgate Hl (b & Hb & Hrole) Habs new. repeat split.
  - rewrite getitem_permitted by done. rewrite Hl. simpl.
    by rewrite getitem_loop_absent.
  - rewrite setitem_permitted by done. rewrite Hl. simpl.
    rewrite (proj2 (setitem_loop_None key _ l) Habs).
    unfold seq_append, bind, get_self. by rewrite Hl.
  - unfold count_eq. rewrite filter_app, length_app.
    rewrite (filter_cons_True _ new) by done. simpl.
    assert (b ∈ filter (fun b => sval (role b) = sval key) l) as Hin
      by (by apply list_elem_of_filter).
    destruct (filter _ l); [by apply elem_of_nil in Hin | simpl; lia].
  - rewrite delitem_permitted by done. rewrite Hl. simpl.
    by rewrite (proj2 (delitem_loop_None key l) Habs).
Qed.

Lemma role_lookup_by_identity_witness :
  __getitem__ owner_key_a (world_of policy_owner)
    = (inr (PySet ∅), world_of policy_owner)
  /\ __delitem__ owner_key_a (world_of policy_owner)
    = (inl (KeyError owner_key_a), world_of policy_owner).
Proof.
  assert (absent owner_key_a (seq_items (_bindings policy_owner))) as Habs.
  { intros b Hb. apply list_elem_of_singleton in Hb. by subst b. }
  destruct (role_lookup_by_identity elements (world_of policy_owner)
              owner_key_a ["user:b@x.com"] _ eq_refl eq_refl)
    as (Hget & _ & _ & Hdel); [| exact Habs | by split].
  eexists. split; [apply list_elem_of_here | reflexivity].
Defined.

(** ** Deletion *)

Lemma NoDup_fmap_eq {A B} (f : A -> B) (l : list A) (x y : A) :
  NoDup (f <$> l) -> x ∈ l -> y ∈ l -> f x = f y -> x = y.
Proof.
  intros Hnd [i Hi]%list_elem_of_lookup [j Hj]%list_elem_of_lookup Hf.
  assert (i = j) as ->.
  { apply (NoDup_lookup (f <$> l) i j (f x) Hnd).
    - by rewrite list_lookup_fmap, Hi.
    - by rewrite list_lookup_fmap, Hj, Hf. }
  congruence.
Qed.




(** ** Repeated assignment *)

Lemma count_is_app (key : pystr) (l1 l2 : list binding) :
  count_is key (l1 ++ l2) = (count_is key l1 + count_is key l2)%nat.
Proof. unfold count_is. by rewrite filter_app, length_app. Qed.

Lemma count_is_cons (key : pystr) (b : binding) (l : list binding) :
  count_is key (b :: l) =
    ((if py_is (role b) key then 1 else 0) + count_is key l)%nat.
Proof.
  unfold count_is. destruct (py_is (role b) key) eqn:E.
  - by rewrite filter_cons_True.
  - rewrite filter_cons_False; [done | by rewrite E].
Qed.

Lemma count_is_absent (key : pystr) (l : list binding) :
  absent key l <-> count_is key l = 0%nat.
Proof.
  induction l as [|b l IH].
  - split; [done | intros _; apply absent_nil].
  - rewrite absent_cons, count_is_cons, IH.
    destruct (py_is (role b) key); simpl.
    + split; [by intros [? _] | done].
    + split; [by intros [_ ?] | by intros ?].
Qed.

Lemma setitem_loop_Some (key : pystr) (value : list string)
    (bs bs' : list binding) :
  setitem_loop key value bs = Some bs' ->
  exists l1 b l2,
    bs = l1 ++ b :: l2 /\ absent key l1 /\ py_is (role b) key = true
    /\ bs' = l1 ++ with_member b value :: l2.
Proof.
  intros Hset. destruct (delitem_loop key bs) as [b|] eqn:E.
  - apply delitem_loop_Some in E as (l1 & l2 & -> & Habs & Hb).
    rewrite setitem_loop_first in Hset by done. injection Hset as <-.
    by exists l1, b, l2.
  - apply delitem_loop_None, (setitem_loop_None key value) in E. congruence.
Qed.


(** With the gate open and a list behind the policy, an assignment
    succeeds, leaves a list behind, and the list has a binding for the
    key object. *)
Lemma setitem_succeeds (set_order : gset string -> list string)
    (w : world) (key : pystr) (value : list string) (l : list binding) :
  gate_permits (self w) = true ->
  _bindings (self w) = PyList l ->
  exists l',
    __setitem__ set_order key value w = (inr tt, with_bindings w (PyList l'))
    /\ (1 <= count_is key l')%nat.
Proof.
  intros Hgate Hl. rewrite setitem_permitted by done. rewrite Hl. simpl.
  destruct (setitem_loop key _ l) as [bs'|] eqn:E.
  - exists bs'. split; [done|].
    apply setitem_loop_Some in E as (l1 & b & l2 & _ & _ & Hb & ->).
    rewrite count_is_app, count_is_cons. simpl. rewrite Hb. lia.
  - eexists. unfold seq_append, bind, get_self. rewrite Hl. split; [done|].
    rewrite count_is_app, count_is_cons, py_is_refl. lia.
Qed.







(** ** The legacy attributes *)

Lemma members_of_permitted (w : world) (r : pystr) :
  gate_permits (self w) = true ->
  members_of w r = getitem_loop r (items_of w).
Proof. intros Hgate. unfold members_of. by rewrite getitem_permitted. Qed.

Lemma get_permitted (w : world) (key : pystr) (default : iterable) :
  gate_permits (self w) = true ->
  get key default w = (inr (OfSet (PySet (members_of w key))), w).
Proof.
  intros Hgate. rewrite members_of_permitted by done.
  unfold get. by rewrite getitem_permitted.
Qed.

Lemma collect_permitted (w : world) (roles : list pystr) (result : gset string) :
  gate_permits (self w) = true ->
  collect roles result w = (inr (result ∪ ⋃ (members_of w <$> roles)), w).
Proof.
  intros Hgate. revert result. induction roles as [|r roles IH]; intros result.
  - simpl. unfold ret. by rewrite (right_id_L ∅ (∪)).
  - simpl. unfold bind. rewrite get_permitted by done. rewrite IH. simpl.
    by rewrite (assoc_L (∪)).
Qed.





Example owners_of_policy_owner :
  (owners (world_of policy_owner)).1 = inr (PyFrozenset {["user:a@x.com"]}).
Proof.
  unfold owners, bind. rewrite collect_permitted by done. simpl.
  rewrite members_of_permitted by done. simpl.
  by rewrite !(right_id_L ∅ (∪)), (left_id_L ∅ (∪)).
Qed.

(** * Further properties of the policy *)

(** ** What a call can do to the state *)

(** The state after an assignment, case by case: nothing happened (the
    only case with an exception), or the first binding for the key
    object got the key [member], or a binding was appended. *)
Lemma setitem_cases (set_order : gset string -> list string)
    (w : world) (key : pystr) (value : list string) :
  (exists e, __setitem__ set_order key value w = (inl e, w))
  \/ (exists l1 b l2,
        _bindings (self w) = PyList (l1 ++ b :: l2)
        /\ absent key l1 /\ py_is (role b) key = true
        /\ __setitem__ set_order key value w =
             (inr tt,
              with_bindings w
                (PyList (l1 ++ with_member b (set_order (list_to_set value)) :: l2))))
  \/ (exists l,
        _bindings (self w) = PyList l
        /\ absent key l
        /\ __setitem__ set_order key value w =
             (inr tt, with_bindings w (PyList (l ++ [new_binding set_order key value])))).
Proof.
  destruct (gate_permits (self w)) eqn:Hgate.
  - rewrite setitem_permitted by done. simpl.
    destruct (_bindings (self w)) as [l|] eqn:Hl; simpl.
    + destruct (setitem_loop key _ l) as [bs'|] eqn:E.
      * apply setitem_loop_Some in E as (l1 & b & l2 & -> & Habs & Hb & ->).
        right; left. by exists l1, b, l2.
      * apply setitem_loop_None in E. right; right. exists l.
        unfold seq_append, bind, get_self. by rewrite Hl.
    + left. eexists. unfold seq_append, bind, get_self, raise. by rewrite Hl.
  - left. eexists. unfold __setitem__, bind.
    by rewrite check_version_closed.
Qed.

(** The state after a deletion, case by case: nothing happened (the
    only case with an exception), or one item left the list, the first
    that equals the binding the loop stopped at. *)
Lemma delitem_cases (w : world) (key : pystr) :
  (exists e, __delitem__ key w = (inl e, w))
  \/ (exists l1 e l2 b0,
        _bindings (self w) = PyList (l1 ++ e :: l2)
        /\ delitem_loop key (l1 ++ e :: l2) = Some b0
        /\ binding_eqb e b0 = true
        /\ Forall (fun x => binding_eqb x b0 = false) l1
        /\ __delitem__ key w = (inr tt, with_bindings w (PyList (l1 ++ l2)))).
Proof.
  destruct (gate_permits (self w)) eqn:Hgate.
  - rewrite delitem_permitted by done.
    destruct (_bindings (self w)) as [l|] eqn:Hl; simpl.
    + destruct (delitem_loop key l) as [b0|] eqn:E; [|left; by eexists].
      assert (b0 ∈ l) as Hin.
      { apply delitem_loop_Some in E as (p1 & p2 & -> & _).
        apply elem_of_app. right. apply list_elem_of_here. }
      destruct (list_remove_elem b0 l Hin) as (l1 & e & l2 & -> & He & Hl1 & Hrm).
      right. exists l1, e, l2, b0. repeat split; try done.
      unfold seq_remove, bind, get_self. rewrite Hl. simpl. by rewrite Hrm.
    + left. by eexists.
  - left. eexists. unfold __delitem__, bind. by rewrite check_version_closed.
Qed.

(** X14: an assignment or a deletion that ends in an exception leaves
    the policy and the warnings exactly as they were. *)
Theorem failures_leave_state (set_order : gset string -> list string)
    (w : world) (key : pystr) (value : list string) (e : exn) :
  ((__setitem__ set_order key value w).1 = inl e ->
     (__setitem__ set_order key value w).2 = w)
  /\ ((__delitem__ key w).1 = inl e -> (__delitem__ key w).2 = w).
Proof.
  split.
  - destruct (setitem_cases set_order w key value)
      as [[e' ->]|[(l1 & b & l2 & _ & _ & _ & ->)|(l & _ & _ & ->)]]; by simpl.
  - destruct (delitem_cases w key)
      as [[e' ->]|(l1 & x & l2 & b0 & _ & _ & _ & _ & ->)]; by simpl.
Qed.

Lemma failures_leave_state_witness :
  (__setitem__ elements OWNER_ROLE ["user:a@x.com"] (world_of policy_v2)).2
    = world_of policy_v2
  /\ (__delitem__ owner_key_a (world_of policy_owner)).2 = world_of policy_owner.
Proof.
  split.
  - by apply (proj1 (failures_leave_state elements (world_of policy_v2)
                       OWNER_ROLE ["user:a@x.com"] migration_error)).
  - by apply (proj2 (failures_leave_state elements (world_of policy_owner)
                       owner_key_a [] (KeyError owner_key_a))).
Defined.

(** ** Reading *)

Lemma getitem_run (w : world) (key : pystr) :
  __getitem__ key w =
    (if gate_permits (self w)
     then inr (PySet (getitem_loop key (items_of w)))
     else inl migration_error, w).
Proof.
  destruct (gate_permits (self w)) eqn:Hgate.
  - by rewrite getitem_permitted.
  - unfold __getitem__, bind. by rewrite check_version_closed.
Qed.

Lemma get_run (w : world) (key : pystr) (default : iterable) :
  get key default w =
    (if gate_permits (self w)
     then inr (OfSet (PySet (getitem_loop key (items_of w))))
     else inl migration_error, w).
Proof.
  unfold get. rewrite getitem_run. by destruct (gate_permits (self w)).
Qed.

Lemma collect_state (roles : list pystr) (result : gset string) (w : world) :
  (collect roles result w).2 = w.
Proof.
  revert result. induction roles as [|r roles IH]; intros result; [done|].
  simpl. unfold bind. rewrite get_run.
  destruct (gate_permits (self w)); [apply IH | done].
Qed.

(** X1: no reading call changes the state, whatever the version: not
    the lookup, the iteration, the length, the [bindings] getter,
    [get], nor the three legacy getters. *)
Theorem reads_leave_state (w : world) (key : pystr) (default : iterable) :
  (__getitem__ key w).2 = w
  /\ (__iter__ w).2 = w
  /\ (__len__ w).2 = w
  /\ (bindings w).2 = w
  /\ (get key default w).2 = w
  /\ (owners w).2 = w
  /\ (editors w).2 = w
  /\ (viewers w).2 = w.
Proof.
  assert (forall roles,
    (bind (collect roles ∅) (fun result => ret (PyFrozenset result)) w).2 = w)
    as Hlegacy.
  { intros roles. unfold bind.
    pose proof (collect_state roles ∅ w) as Hc.
    by destruct (collect roles ∅ w) as [[e|s] w']. }
  rewrite getitem_run, get_run. repeat split; try done; try apply Hlegacy.
  - destruct (gate_permits (self w)) eqn:Hgate.
    + by rewrite iter_permitted.
    + unfold __iter__, bind. by rewrite check_version_closed.
  - destruct (gate_permits (self w)) eqn:Hgate.
    + by rewrite len_permitted.
    + unfold __len__, bind. by rewrite check_version_closed.
Qed.

(** X2: the length and the iteration agree: either both raise the
    version error, or the length is the number of roles the iteration
    yields, one per binding in list order. *)
Theorem len_counts_iter (w : world) :
  (__iter__ w = (inl migration_error, w) /\ __len__ w = (inl migration_error, w))
  \/ (exists roles,
        __iter__ w = (inr roles, w)
        /\ __len__ w = (inr (length roles), w)
        /\ roles = role <$> items_of w).
Proof.
  destruct (gate_permits (self w)) eqn:Hgate.
  - right. exists (role <$> items_of w).
    rewrite iter_permitted, len_permitted by done.
    unfold items_of. by rewrite length_fmap.
  - left. unfold __iter__, __len__, bind. by rewrite check_version_closed.
Qed.

(** X3: a lookup never raises [KeyError], so [get] never hands back its
    default: it returns the set the lookup returns, or raises what the
    lookup raises. *)
Theorem get_never_default (w : world) (key : pystr) (default : iterable) :
  (forall k, (__getitem__ key w).1 ≠ inl (KeyError k))
  /\ get key default w =
       (match (__getitem__ key w).1 with
        | inl e => inl e
        | inr s => inr (OfSet s)
        end, w).
Proof.
  rewrite getitem_run, get_run.
  by destruct (gate_permits (self w)).
Qed.

(** ** What an assignment keeps *)

Lemma py_is_true (a b : pystr) : py_is a b = true <-> oid a = oid b.
Proof. unfold py_is. apply bool_decide_eq_true. Qed.

Lemma py_is_false (a b : pystr) : py_is a b = false <-> oid a ≠ oid b.
Proof. unfold py_is. apply bool_decide_eq_false. Qed.

Lemma gate_with_bindings (w : world) (s : pyseq) :
  gate_permits (self (with_bindings w s)) = gate_permits (self w).
Proof. reflexivity. Qed.

Lemma with_bindings_same (w : world) (s : pyseq) :
  _bindings (self w) = s -> with_bindings w s = w.
Proof. destruct w as [[e v s'] ws]. simpl. by intros ->. Qed.

(** A lookup passes over a binding whose role is another object. *)
Lemma getitem_loop_skip (key : pystr) (l1 l2 : list binding) (b : binding) :
  py_is (role b) key = false ->
  getitem_loop key (l1 ++ b :: l2) = getitem_loop key (l1 ++ l2).
Proof.
  intros Hb. induction l1 as [|x l1 IH]; simpl; [by rewrite Hb|].
  by rewrite IH.
Qed.

(** A lookup reads the roles and the [members] only. *)
Lemma getitem_loop_member (key : pystr) (l1 l2 : list binding) (b : binding)
    (value : list string) :
  getitem_loop key (l1 ++ with_member b value :: l2)
    = getitem_loop key (l1 ++ b :: l2).
Proof. induction l1 as [|x l1 IH]; simpl; [done | by rewrite IH]. Qed.

(** X4: an assignment, whether it succeeds or not, keeps the etag and
    the version, and either keeps the role and the [members] of every
    binding as they were (only the key [member] of a binding can have
    changed), or, when no binding had the key object as its role,
    appends one binding for it behind the others. *)
Theorem setitem_keeps_bindings (set_order : gset string -> list string)
    (w : world) (key : pystr) (value : list string) :
  etag (self (__setitem__ set_order key value w).2) = etag (self w)
  /\ version (self (__setitem__ set_order key value w).2) = version (self w)
  /\ (visible <$> items_of (__setitem__ set_order key value w).2
        = visible <$> items_of w
      \/ (absent key (items_of w)
          /\ items_of (__setitem__ set_order key value w).2
               = items_of w ++ [new_binding set_order key value])).
Proof.
  destruct (setitem_cases set_order w key value)
    as [[e ->]|[(l1 & b & l2 & Hl & _ & _ & ->)|(l & Hl & Habs & ->)]];
    simpl; repeat split; unfold items_of; simpl.
  - by left.
  - left. rewrite Hl. simpl. by rewrite !fmap_app.
  - right. by rewrite Hl.
Qed.

(** X5: an assignment through one key object does not change what a
    lookup through another object returns. *)
Theorem setitem_other_roles (set_order : gset string -> list string)
    (w : world) (key key' : pystr) (value : list string) :
  oid key' ≠ oid key ->
  (__getitem__ key' (__setitem__ set_order key value w).2).1
    = (__getitem__ key' w).1.
Proof.
  intros Hne. rewrite !getitem_run.
  destruct (setitem_cases set_order w key value)
    as [[e ->]|[(l1 & b & l2 & Hl & _ & _ & ->)|(l & Hl & Habs & ->)]];
    [done | |]; cbn [snd fst]; rewrite gate_with_bindings;
    (destruct (gate_permits (self w)); [|done]);
    unfold items_of; simpl; rewrite Hl; simpl.
  - by rewrite getitem_loop_member.
  - rewrite (getitem_loop_skip key' l []), app_nil_r; [done|].
    apply py_is_false. simpl. congruence.
Qed.

Lemma setitem_other_roles_witness :
  (__getitem__ OWNER_ROLE
     (__setitem__ elements EDITOR_ROLE ["user:b@x.com"] (world_of policy_owner)).2).1
  = (__getitem__ OWNER_ROLE (world_of policy_owner)).1.
Proof. apply setitem_other_roles. discriminate. Defined.

(** ** Deletion after assignment, reading after deletion *)

Lemma delitem_loop_snoc (key : pystr) (l : list binding) (b : binding) :
  absent key l -> py_is (role b) key = true ->
  delitem_loop key (l ++ [b]) = Some b.
Proof.
  intros Habs Hb. apply delitem_loop_Some. exists l, []. by repeat split.
Qed.

Lemma list_remove_snoc (b : binding) (l : list binding) :
  (forall x, x ∈ l -> binding_eqb x b = false) ->
  list_remove b (l ++ [b]) = Some l.
Proof.
  intros Hl. induction l as [|y l IH]; simpl.
  - by rewrite binding_eqb_refl.
  - rewrite (Hl y) by left. rewrite IH; [done|].
    intros x Hx. apply Hl. by right.
Qed.

(** X6: on a list in which no role is the key object and no role reads
    like it, an assignment followed by the deletion of the same key
    succeeds and gives back the state it started from. *)
Theorem set_then_del_restores (set_order : gset string -> list string)
    (w : world) (key : pystr) (value : list string) (l : list binding) :
  gate_permits (self w) = true ->
  _bindings (self w) = PyList l ->
  absent key l ->
  (forall b, b ∈ l -> sval (role b) ≠ sval key) ->
  set_then_del set_order key value w = (inr tt, w).
Proof.
  intros Hgate Hl Habs Hfresh. unfold set_then_del, bind.
  rewrite setitem_permitted by done. rewrite Hl. simpl.
  rewrite (proj2 (setitem_loop_None key _ l) Habs).
  unfold seq_append, bind, get_self. rewrite Hl. simpl.
  rewrite delitem_permitted by done. simpl.
  rewrite delitem_loop_snoc by (done || apply py_is_refl).
  unfold seq_remove, bind, get_self. simpl.
  rewrite list_remove_snoc.
  - unfold put_bindings. simpl. f_equal.
    destruct w as [[e v s] ws]. simpl in *. by subst s.
  - intros x Hx. apply not_true_is_false.
    intros [Hrole _]%binding_eqb_true. by apply (Hfresh x Hx).
Qed.

Lemma set_then_del_restores_witness :
  set_then_del elements EDITOR_ROLE ["user:b@x.com"] (world_of policy_owner)
    = (inr tt, world_of policy_owner).
Proof.
  apply (set_then_del_restores elements (world_of policy_owner) EDITOR_ROLE
           ["user:b@x.com"] _ eq_refl eq_refl).
  - intros b Hb. apply list_elem_of_singleton in Hb. by subst b.
  - intros b Hb. apply list_elem_of_singleton in Hb. by subst b.
Defined.

Lemma role_texts_unique (l : list binding) (a b : binding) :
  NoDup (role_texts l) -> a ∈ l -> b ∈ l -> binding_eqb a b = true -> a = b.
Proof.
  intros Hnd Ha Hb [Hrole _]%binding_eqb_true.
  by apply (NoDup_fmap_eq (fun b => sval (role b)) l a b).
Qed.

(** With role texts that are pairwise distinct, a deletion that finds a
    binding removes that very binding. *)
Lemma delitem_unique (w : world) (key : pystr) (l : list binding) (b : binding) :
  gate_permits (self w) = true ->
  _bindings (self w) = PyList l ->
  NoDup (role_texts l) ->
  delitem_loop key l = Some b ->
  exists l1 l2,
    l = l1 ++ b :: l2
    /\ absent key l1
    /\ py_is (role b) key = true
    /\ __delitem__ key w = (inr tt, with_bindings w (PyList (l1 ++ l2))).
Proof.
  intros Hgate Hl Hnd Hb.
  pose proof Hb as (l1 & l2 & Hsplit & Habs & Hkey)%delitem_loop_Some.
  exists l1, l2. repeat split; try done.
  assert (b ∈ l) as Hin
    by (rewrite Hsplit; apply elem_of_app; right; apply list_elem_of_here).
  destruct (list_remove_elem b l Hin) as (p1 & e & p2 & Hp & He & Hp1 & Hrm).
  assert (e = b) as ->.
  { apply (role_texts_unique l); try done.
    rewrite Hp. apply elem_of_app. right. apply list_elem_of_here. }
  assert (p1 = l1 /\ p2 = l2) as [-> ->].
  { rewrite Hsplit in Hp, Hnd. unfold role_texts in Hnd.
    apply NoDup_fmap_1 in Hnd.
    assert (length l1 = length p1) as Hlen.
    { apply (NoDup_lookup (l1 ++ b :: l2) _ _ b Hnd).
      - by rewrite list_lookup_middle.
      - rewrite Hp. by rewrite list_lookup_middle. }
    apply app_inj_1 in Hp as [-> [= ->]]; done. }
  rewrite delitem_permitted by done. rewrite Hl. simpl. rewrite Hb.
  unfold seq_remove, bind, get_self. rewrite Hl. simpl. by rewrite Hrm.
Qed.

(** X7: on a list with pairwise distinct role texts and exactly one
    binding whose role is the key object, the deletion succeeds and
    shortens the list by one; after it the lookup of the key returns the
    empty set and a second deletion raises [KeyError]. *)
Theorem delitem_then_reads (w : world) (key : pystr) (l : list binding) :
  gate_permits (self w) = true ->
  _bindings (self w) = PyList l ->
  NoDup (role_texts l) ->
  count_is key l = 1%nat ->
  exists l',
    __delitem__ key w = (inr tt, with_bindings w (PyList l'))
    /\ length l = S (length l')
    /\ __getitem__ key (with_bindings w (PyList l'))
         = (inr (PySet ∅), with_bindings w (PyList l'))
    /\ __delitem__ key (with_bindings w (PyList l'))
         = (inl (KeyError key), with_bindings w (PyList l')).
Proof.
  intros Hgate Hl Hnd Hcount.
  destruct (delitem_loop key l) as [b|] eqn:E.
  - destruct (delitem_unique w key l b Hgate Hl Hnd E)
      as (l1 & l2 & -> & Habs1 & Hkey & Hdel).
    assert (absent key (l1 ++ l2)) as Habs.
    { apply count_is_absent. rewrite count_is_app.
      rewrite count_is_app, count_is_cons, Hkey in Hcount. lia. }
    exists (l1 ++ l2). repeat split; [done | | |].
    + rewrite !length_app. simpl. lia.
    + rewrite getitem_permitted by done. simpl.
      by rewrite getitem_loop_absent.
    + rewrite delitem_permitted by done. simpl.
      by rewrite (proj2 (delitem_loop_None key _) Habs).
  - apply delitem_loop_None, count_is_absent in E. lia.
Qed.

Lemma delitem_then_reads_witness :
  exists l',
    __delitem__ OWNER_ROLE (world_of policy_owner)
      = (inr tt, with_bindings (world_of policy_owner) (PyList l'))
    /\ __getitem__ OWNER_ROLE (with_bindings (world_of policy_owner) (PyList l'))
         = (inr (PySet ∅), with_bindings (world_of policy_owner) (PyList l')).
Proof.
  destruct (delitem_then_reads (world_of policy_owner) OWNER_ROLE _ eq_refl eq_refl)
    as (l' & Hdel & _ & Hget & _).
  - apply NoDup_singleton.
  - reflexivity.
  - by exists l'.
Defined.

(** X8: with pairwise distinct role texts, a deletion, whether it
    succeeds or not, does not change what a lookup through another key
    object returns. *)
Theorem delitem_other_roles (w : world) (key key' : pystr) :
  oid key' ≠ oid key ->
  NoDup (role_texts (items_of w)) ->
  (__getitem__ key' (__delitem__ key w).2).1 = (__getitem__ key' w).1.
Proof.
  intros Hne Hnd. rewrite !getitem_run.
  destruct (gate_permits (self w)) eqn:Hgate.
  - unfold items_of in *.
    destruct (_bindings (self w)) as [l|] eqn:Hl.
    + destruct (delitem_loop key l) as [b|] eqn:E.
      * destruct (delitem_unique w key l b Hgate Hl Hnd E)
          as (l1 & l2 & -> & _ & Hkey & ->).
        cbn [snd fst]. rewrite gate_with_bindings, Hgate. simpl.
        rewrite getitem_loop_skip; [done|].
        apply py_is_true in Hkey. apply py_is_false. congruence.
      * rewrite delitem_permitted by done. rewrite Hl. simpl. rewrite E.
        simpl. by rewrite Hgate, ?Hl.
    + rewrite delitem_permitted by done. rewrite Hl. simpl.
      by rewrite Hgate, ?Hl.
  - unfold __delitem__, bind. rewrite check_version_closed by done.
    simpl. by rewrite Hgate.
Qed.

Lemma delitem_other_roles_witness :
  (__getitem__ EDITOR_ROLE (__delitem__ OWNER_ROLE (world_of policy_owner)).2).1
    = (__getitem__ EDITOR_ROLE (world_of policy_owner)).1.
Proof.
  apply delitem_other_roles; [discriminate | apply NoDup_singleton].
Defined.

(** ** The invariant of the data model *)

Lemma role_texts_app (l1 l2 : list binding) :
  role_texts (l1 ++ l2) = role_texts l1 ++ role_texts l2.
Proof. unfold role_texts. apply fmap_app. Qed.

(** X13: pairwise distinct role texts stay pairwise distinct under a
    deletion, and under an assignment whose key is the stored object
    wherever a stored role reads like it. *)
Theorem role_texts_stay_unique (set_order : gset string -> list string)
    (w : world) (key : pystr) (value : list string) :
  NoDup (role_texts (items_of w)) ->
  (shares_roles key (items_of w) ->
     NoDup (role_texts (items_of (__setitem__ set_order key value w).2)))
  /\ NoDup (role_texts (items_of (__delitem__ key w).2)).
Proof.
  intros Hnd. split.
  - intros Hshare.
    destruct (setitem_cases set_order w key value)
      as [[e ->]|[(l1 & b & l2 & Hl & _ & _ & ->)|(l & Hl & Habs & ->)]];
      [done | |]; unfold items_of in *; rewrite Hl in *; simpl in *.
    + by rewrite role_texts_app in *.
    + rewrite role_texts_app. apply NoDup_app. split; [done|]. split.
      * intros t Ht [->|Hin]%elem_of_cons; [|by apply elem_of_nil in Hin].
        apply list_elem_of_fmap in Ht as (b & Hrole & Hb).
        pose proof (Hshare b Hb (eq_sym Hrole)) as Hs.
        rewrite (Habs b Hb) in Hs. discriminate.
      * apply NoDup_singleton.
  - destruct (delitem_cases w key)
      as [[e ->]|(l1 & x & l2 & b0 & Hl & _ & _ & _ & ->)]; [done|].
    unfold items_of in *. rewrite Hl in Hnd. simpl in *.
    rewrite role_texts_app in *. simpl in Hnd.
    apply NoDup_app in Hnd as (Hn1 & Hdisj & Hn2).
    apply NoDup_cons in Hn2 as [_ Hn2].
    apply NoDup_app. repeat split; [done | | done].
    intros t Ht1 Ht2. apply (Hdisj t Ht1). by right.
Qed.

Lemma role_texts_stay_unique_witness :
  NoDup (role_texts
           (items_of (__setitem__ elements EDITOR_ROLE ["user:b@x.com"]
                        (world_of policy_owner)).2))
  /\ NoDup (role_texts (items_of (__delitem__ OWNER_ROLE (world_of policy_owner)).2)).
Proof.
  split.
  - apply (role_texts_stay_unique elements (world_of policy_owner) EDITOR_ROLE).
    + apply NoDup_singleton.
    + intros b Hb Htext. apply list_elem_of_singleton in Hb. subst b.
      discriminate Htext.
  - apply (role_texts_stay_unique elements (world_of policy_owner) OWNER_ROLE []).
    apply NoDup_singleton.
Defined.

(** ** Export followed by import *)

(** X11: a policy that went through [to_api_repr] and back through
    [from_api_repr] has the etag, the version and the bindings it had;
    it is the same policy when it has a binding, and with no binding
    its sequence is the empty tuple.  Exporting it again gives the same
    resource. *)
Theorem from_to_api_repr (p : Policy) :
  etag (from_api_repr (to_api_repr p)) = etag p
  /\ version (from_api_repr (to_api_repr p)) = version p
  /\ seq_items (_bindings (from_api_repr (to_api_repr p))) = seq_items (_bindings p)
  /\ (seq_items (_bindings p) ≠ [] -> from_api_repr (to_api_repr p) = p)
  /\ (seq_items (_bindings p) = [] ->
        _bindings (from_api_repr (to_api_repr p)) = PyEmptyTuple)
  /\ to_api_repr (from_api_repr (to_api_repr p)) = to_api_repr p.
Proof.
  assert (etag (from_api_repr (to_api_repr p)) = etag p) as Hetag.
  { unfold from_api_repr, get_str. simpl. rewrite to_api_repr_etag.
    by destruct (etag p). }
  assert (version (from_api_repr (to_api_repr p)) = version p) as Hversion.
  { unfold from_api_repr, get_int. simpl. rewrite to_api_repr_version.
    by destruct (version p). }
  assert (_bindings (from_api_repr (to_api_repr p)) =
            match seq_items (_bindings p) with
            | [] => PyEmptyTuple
            | _ :: _ => _bindings p
            end) as Hseq.
  { unfold from_api_repr, get_seq. simpl. rewrite to_api_repr_bindings.
    by destruct (seq_items (_bindings p)). }
  assert (seq_items (_bindings (from_api_repr (to_api_repr p)))
            = seq_items (_bindings p)) as Hitems.
  { rewrite Hseq. by destruct (seq_items (_bindings p)) eqn:E. }
  repeat split; try done.
  - intros Hne. destruct (from_api_repr (to_api_repr p)) as [e v s].
    destruct p as [e' v' s']. simpl in *. subst e v.
    destruct (seq_items s'); [done | by subst s].
  - intros Hnil. by rewrite Hseq, Hnil.
  - apply map_eq. intros k.
    destruct (decide (k = "etag")) as [->|H1];
      [by rewrite !to_api_repr_etag, Hetag|].
    destruct (decide (k = "version")) as [->|H2];
      [by rewrite !to_api_repr_version, Hversion|].
    destruct (decide (k = "bindings")) as [->|H3].
    + rewrite !to_api_repr_bindings, Hitems.
      destruct (seq_items (_bindings p)) eqn:E; [done|].
      by rewrite Hseq, ?E.
    + by rewrite !to_api_repr_other.
Qed.

Lemma from_to_api_repr_witness :
  from_api_repr (to_api_repr policy_owner) = policy_owner.
Proof.
  by apply (from_to_api_repr policy_owner).
Defined.

(** X12: a policy decoded from a resource without bindings, with the
    gate open, can be read: its length is 0, it iterates over nothing,
    every lookup returns the empty set, every deletion raises
    [KeyError], and its export has no key [bindings]. *)
Theorem decoded_without_bindings (r : gmap string jvalue) (key : pystr) :
  r !! "bindings" = None ->
  gate_permits (from_api_repr r) = true ->
  __len__ (world_of (from_api_repr r)) = (inr 0%nat, world_of (from_api_repr r))
  /\ __iter__ (world_of (from_api_repr r)) = (inr [], world_of (from_api_repr r))
  /\ __getitem__ key (world_of (from_api_repr r))
       = (inr (PySet ∅), world_of (from_api_repr r))
  /\ __delitem__ key (world_of (from_api_repr r))
       = (inl (KeyError key), world_of (from_api_repr r))
  /\ to_api_repr (from_api_repr r) !! "bindings" = None.
Proof.
  intros Hr Hgate.
  assert (_bindings (from_api_repr r) = PyEmptyTuple) as Hseq
    by (unfold from_api_repr, get_seq; simpl; by rewrite Hr).
  rewrite len_permitted, iter_permitted, getitem_permitted, delitem_permitted,
    to_api_repr_bindings by done.
  simpl self. by rewrite Hseq.
Qed.

Lemma decoded_without_bindings_witness :
  __getitem__ OWNER_ROLE (world_of (from_api_repr ∅))
    = (inr (PySet ∅), world_of (from_api_repr ∅)).
Proof.
  by apply (decoded_without_bindings ∅ OWNER_ROLE).
Defined.

(** ** The legacy attributes, written and read back *)

Lemma setitem_fresh (set_order : gset string -> list string)
    (w : world) (key : pystr) (value : list string) (l : list binding) :
  gate_permits (self w) = true ->
  _bindings (self w) = PyList l ->
  absent key l ->
  __setitem__ set_order key value w =
    (inr tt, with_bindings w (PyList (l ++ [new_binding set_order key value]))).
Proof.
  intros Hgate Hl Habs. rewrite setitem_permitted by done. rewrite Hl. simpl.
  rewrite (proj2 (setitem_loop_None key _ l) Habs).
  unfold seq_append, bind, get_self. by rewrite Hl.
Qed.

Lemma legacy_getter_run (roles : list pystr) (w : world) :
  gate_permits (self w) = true ->
  bind (collect roles ∅) (fun result => ret (PyFrozenset result)) w =
    (inr (PyFrozenset (⋃ ((fun r => getitem_loop r (items_of w)) <$> roles))), w).
Proof.
  intros Hgate. unfold bind. rewrite collect_permitted by done. simpl.
  unfold ret. rewrite (left_id_L ∅ (∪)).
  apply f_equal2; [|done]. apply f_equal, f_equal, f_equal.
  apply list_fmap_ext. intros _ r _. by apply members_of_permitted.
Qed.

Section LegacyRoundTrip.

Variable set_order : gset string -> list string.
Hypothesis set_order_perm : forall s, set_order s ≡ₚ elements s.

Lemma getitem_loop_new (key : pystr) (value : list string) (l : list binding) :
  absent key l ->
  getitem_loop key (l ++ [new_binding set_order key value]) = list_to_set value.
Proof.
  intros Habs. rewrite getitem_loop_app_absent by done. simpl.
  by rewrite py_is_refl, (list_to_set_order set_order set_order_perm).
Qed.

Lemma bind_run {A B} (m : M A) (k : A -> M B) (w : world) :
  bind m k w =
    match m w with
    | (inl e, w') => (inl e, w')
    | (inr a, w') => k a w'
    end.
Proof. reflexivity. Qed.

Lemma legacy_setter_run (attr : string) (key : pystr) (value : list string)
    (w : world) :
  bind (deprecated_msg attr key) (fun msg =>
    bind (warnings_warn msg DeprecationWarning) (fun _ =>
      __setitem__ set_order key value)) w
  = __setitem__ set_order key value (with_warning w (deprecation attr key)).
Proof. reflexivity. Qed.

(** X9: with the gate open and a list that has no binding for the role
    constant of a legacy attribute, assigning members to the attribute
    and reading the attribute back gives the frozenset of the members
    assigned. *)
Theorem legacy_set_then_get (w : world) (value : list string) (l : list binding) :
  gate_permits (self w) = true ->
  _bindings (self w) = PyList l ->
  (absent OWNER_ROLE l ->
     (bind (owners_setter set_order value) (fun _ => owners) w).1
       = inr (PyFrozenset (list_to_set value)))
  /\ (absent EDITOR_ROLE l ->
     (bind (editors_setter set_order value) (fun _ => editors) w).1
       = inr (PyFrozenset (list_to_set value)))
  /\ (absent VIEWER_ROLE l ->
     (bind (viewers_setter set_order value) (fun _ => viewers) w).1
       = inr (PyFrozenset (list_to_set value))).
Proof.
  intros Hgate Hl.
  assert (forall attr key,
    absent key l ->
    (bind (bind (deprecated_msg attr key) (fun msg =>
             bind (warnings_warn msg DeprecationWarning) (fun _ =>
               __setitem__ set_order key value)))
          (fun _ => bind (collect [key] ∅)
                      (fun result => ret (PyFrozenset result))) w).1
      = inr (PyFrozenset (list_to_set value))) as Hgen.
  { intros attr key Habs. rewrite bind_run, legacy_setter_run.
    rewrite (setitem_fresh set_order _ key value l) by done.
    rewrite legacy_getter_run by done. simpl.
    unfold items_of. simpl. rewrite getitem_loop_new by done.
    by rewrite (right_id_L ∅ (∪)). }
  repeat split; intros Habs.
  - apply (Hgen "owners" OWNER_ROLE Habs).
  - apply (Hgen "editors" EDITOR_ROLE Habs).
  - apply (Hgen "viewers" VIEWER_ROLE Habs).
Qed.

End LegacyRoundTrip.

Lemma legacy_set_then_get_witness :
  (bind (editors_setter elements ["user:b@x.com"; "user:b@x.com"])
        (fun _ => editors) (world_of policy_owner)).1
    = inr (PyFrozenset (list_to_set ["user:b@x.com"; "user:b@x.com"])).
Proof.
  destruct (legacy_set_then_get elements (fun s => reflexivity _)
              (world_of policy_owner) ["user:b@x.com"; "user:b@x.com"]
              _ eq_refl eq_refl) as (_ & Heditors & _).
  apply Heditors.
  intros b Hb. apply list_elem_of_singleton in Hb. by subst b.
Defined.

(** X10: on a policy whose version is 2 or more the three legacy
    getters raise the version error and leave the state alone; the
    three legacy setters raise it too and leave the policy alone, but
    the deprecation warning has been issued by then. *)
Theorem legacy_on_closed_gate (set_order : gset string -> list string)
    (w : world) (value : list string) (v : Z) :
  version (self w) = Some v -> 2 <= v ->
  owners w = (inl migration_error, w)
  /\ editors w = (inl migration_error, w)
  /\ viewers w = (inl migration_error, w)
  /\ owners_setter set_order value w
       = (inl migration_error, with_warning w (deprecation "owners" OWNER_ROLE))
  /\ editors_setter set_order value w
       = (inl migration_error, with_warning w (deprecation "editors" EDITOR_ROLE))
  /\ viewers_setter set_order value w
       = (inl migration_error, with_warning w (deprecation "viewers" VIEWER_ROLE)).
Proof.
  intros Hv Hge.
  assert (gate_permits (self w) = false) as Hgate.
  { unfold gate_permits. rewrite Hv. apply bool_decide_eq_false. lia. }
  repeat split.
  1-3: unfold owners, editors, viewers, bind; simpl; unfold bind;
       rewrite get_run, Hgate; done.
  all: unfold owners_setter, editors_setter, viewers_setter, bind;
       rewrite deprecated_msg_run; simpl;
       unfold __setitem__, bind;
       rewrite (check_version_refuses _ v) by done; done.
Qed.

Lemma legacy_on_closed_gate_witness :
  owners_setter elements ["user:a@x.com"] (world_of policy_v2)
    = (inl migration_error,
       with_warning (world_of policy_v2) (deprecation "owners" OWNER_ROLE)).
Proof.
  by apply (legacy_on_closed_gate elements (world_of policy_v2) _ 2).
Defined.

(** ** Iteration and length after an assignment *)

(** X15: with the gate open and a list behind the policy, an assignment
    succeeds; afterwards the iteration yields the roles it yielded
    before, in the same order, followed by the key object if no binding
    had it as its role, and the length has grown by one in exactly that
    case. *)
Theorem setitem_then_iter (set_order : gset string -> list string)
    (w : world) (key : pystr) (value : list string) (l : list binding) :
  gate_permits (self w) = true ->
  _bindings (self w) = PyList l ->
  exists w',
    __setitem__ set_order key value w = (inr tt, w')
    /\ __iter__ w' =
         (inr ((role <$> l) ++ match count_is key l with O => [key] | S _ => [] end),
          w')
    /\ __len__ w' =
         (inr (length l + match count_is key l with O => 1 | S _ => 0 end)%nat, w').
Proof.
  intros Hgate Hl.
  destruct (setitem_cases set_order w key value)
    as [[e He]|[(l1 & b & l2 & Hl' & _ & Hb & ->)|(l' & Hl' & Habs & ->)]].
  - destruct (setitem_succeeds set_order w key value l Hgate Hl) as (? & Hok & _).
    congruence.
  - eexists. split; [done|].
    rewrite iter_permitted, len_permitted by done. simpl.
    rewrite Hl in Hl'. injection Hl' as ->.
    rewrite count_is_app, count_is_cons, Hb.
    replace (count_is key l1 + (1 + count_is key l2))%nat
      with (S (count_is key l1 + count_is key l2)) by lia.
    rewrite !fmap_app, !length_app, app_nil_r. simpl.
    split; [done | do 2 f_equal; lia].
  - eexists. split; [done|].
    rewrite iter_permitted, len_permitted by done. simpl.
    rewrite Hl in Hl'. injection Hl' as <-.
    rewrite (proj1 (count_is_absent key l) Habs).
    by rewrite fmap_app, length_app.
Qed.

Lemma setitem_then_iter_witness :
  exists w',
    __setitem__ elements EDITOR_ROLE ["user:b@x.com"] (world_of policy_owner)
      = (inr tt, w')
    /\ __iter__ w' = (inr [OWNER_ROLE; EDITOR_ROLE], w').
Proof.
  destruct (setitem_then_iter elements (world_of policy_owner) EDITOR_ROLE
              ["user:b@x.com"] _ eq_refl eq_refl) as (w' & Hset & Hiter & _).
  by exists w'.
Defined.

(** ** Deletion among equal bindings *)

Lemma list_remove_first (b : binding) (p q : list binding) (x : binding) :
  (forall y, y ∈ p -> binding_eqb y b = false) ->
  binding_eqb x b = true ->
  list_remove b (p ++ x :: q) = Some (p ++ q).
Proof.
  intros Hp Hx. induction p as [|y p IH]; simpl; [by rewrite Hx|].
  rewrite (Hp y) by left. rewrite IH; [done|].
  intros z Hz. apply Hp. by right.
Qed.

Lemma delitem_loop_skip (key : pystr) (p q : list binding) (x : binding) :
  py_is (role x) key = false ->
  delitem_loop key (p ++ x :: q) = delitem_loop key (p ++ q).
Proof.
  intros Hx. induction p as [|y p IH]; simpl; [by rewrite Hx|].
  by rewrite IH.
Qed.

(** X16: [list.remove] compares dicts, not objects.  When a binding
    whose role is another object equals the binding the deletion stopped
    at and stands before it in the list, the deletion succeeds by
    removing that earlier binding; the binding for the key object stays,
    and a lookup of the key still returns its members. *)
Theorem delitem_removes_equal_twin (w : world) (key : pystr)
    (p q : list binding) (x b0 : binding) :
  gate_permits (self w) = true ->
  _bindings (self w) = PyList (p ++ x :: q) ->
  delitem_loop key (p ++ x :: q) = Some b0 ->
  binding_eqb x b0 = true ->
  (forall y, y ∈ p -> binding_eqb y b0 = false) ->
  py_is (role x) key = false ->
  __delitem__ key w = (inr tt, with_bindings w (PyList (p ++ q)))
  /\ b0 ∈ p ++ q
  /\ __getitem__ key (with_bindings w (PyList (p ++ q)))
       = (inr (PySet (list_to_set (members b0))), with_bindings w (PyList (p ++ q))).
Proof.
  intros Hgate Hl Hloop Hx Hp Hkey.
  assert (delitem_loop key (p ++ q) = Some b0) as Hloop'
    by (by rewrite <- (delitem_loop_skip key p q x)).
  apply delitem_loop_Some in Hloop' as (l1 & l2 & Hsplit & Habs & Hb0).
  repeat split.
  - rewrite delitem_permitted by done. rewrite Hl. simpl. rewrite Hloop.
    unfold seq_remove, bind, get_self. rewrite Hl. simpl.
    by rewrite list_remove_first.
  - rewrite Hsplit. apply elem_of_app. right. apply list_elem_of_here.
  - rewrite getitem_permitted by done. simpl. rewrite Hsplit.
    by rewrite getitem_loop_first.
Qed.

Lemma delitem_removes_equal_twin_witness :
  __delitem__ OWNER_ROLE (world_of policy_twins)
    = (inr tt,
       with_bindings (world_of policy_twins)
         (PyList [ {| role := OWNER_ROLE; members := ["user:a@x.com"];
                      member := None |} ])).
Proof.
  apply (delitem_removes_equal_twin (world_of policy_twins) OWNER_ROLE []
           [ {| role := OWNER_ROLE; members := ["user:a@x.com"]; member := None |} ]
           {| role := PyStr 20 "roles/owner"; members := ["user:a@x.com"];
              member := None |}
           {| role := OWNER_ROLE; members := ["user:a@x.com"]; member := None |});
    try reflexivity.
  intros y Hy. by apply elem_of_nil in Hy.
Defined.

(** ** A new role, assigned and read back *)

(** X17: with the gate open and a list that has no binding for the key
    object, an assignment followed by a lookup through the same object
    returns the members assigned, as a set, whatever their order and
    repetitions, and the list has one more binding at its end. *)
Theorem set_then_get_new_role (set_order : gset string -> list string)
    (w : world) (key : pystr) (value : list string) (l : list binding) :
  (forall s, set_order s ≡ₚ elements s) ->
  gate_permits (self w) = true ->
  _bindings (self w) = PyList l ->
  absent key l ->
  set_then_get set_order key value w =
    (inr (PySet (list_to_set value)),
     with_bindings w (PyList (l ++ [new_binding set_order key value]))).
Proof. intros Hperm Hgate Hl Habs. by apply set_then_get_fresh. Qed.

Lemma set_then_get_new_role_witness :
  set_then_get elements EDITOR_ROLE ["user:b@x.com"; "user:b@x.com"]
    (world_of policy_owner)
  = (inr (PySet (list_to_set ["user:b@x.com"; "user:b@x.com"])),
     with_bindings (world_of policy_owner)
       (PyList (seq_items (_bindings policy_owner)
                  ++ [new_binding elements EDITOR_ROLE
                        ["user:b@x.com"; "user:b@x.com"]]))).
Proof.
  apply (set_then_get_new_role elements (world_of policy_owner) EDITOR_ROLE
           ["user:b@x.com"; "user:b@x.com"] _ (fun s => reflexivity _)
           eq_refl eq_refl).
  intros b Hb. apply list_elem_of_singleton in Hb. by subst b.
Defined.

(** ** The member helpers tell their members apart *)

Lemma percent_prefix_user (e : string) : user e = Some ("user:" +:+ e).
Proof. unfold user. simpl. by rewrite append_empty_r. Qed.

Lemma percent_prefix_service_account (e : string) :
  service_account e = Some ("serviceAccount:" +:+ e).
Proof. unfold service_account. simpl. by rewrite append_empty_r. Qed.

Lemma percent_prefix_group (e : string) : group e = Some ("group:" +:+ e).
Proof. unfold group. simpl. by rewrite append_empty_r. Qed.

Lemma percent_prefix_domain (d : string) : domain d = Some ("domain:" +:+ d).
Proof. unfold domain. simpl. by rewrite append_empty_r. Qed.

(** X18: each of [user], [service_account], [group] and [domain] gives
    different members for different arguments, no two of them ever give
    the same member, and none of them gives [allUsers] or
    [allAuthenticatedUsers]. *)
Theorem helpers_distinct (a b : string) :
  (user a = user b -> a = b)
  /\ (service_account a = service_account b -> a = b)
  /\ (group a = group b -> a = b)
  /\ (domain a = domain b -> a = b)
  /\ user a ≠ service_account b
  /\ user a ≠ group b
  /\ user a ≠ domain b
  /\ service_account a ≠ group b
  /\ service_account a ≠ domain b
  /\ group a ≠ domain b
  /\ (forall h, h ∈ [user a; service_account a; group a; domain a] ->
        h ≠ Some all_users /\ h ≠ Some authenticated_users).
Proof.
  rewrite !percent_prefix_user, !percent_prefix_service_account,
    !percent_prefix_group, !percent_prefix_domain.
  repeat split; try (intros [= ?]; done); try discriminate.
  all: intros ->;
    repeat (apply elem_of_cons in H as [H|H]; [discriminate H|]);
    by apply elem_of_nil in H.
Qed.

Lemma helpers_distinct_witness :
  user "a@x.com" ≠ group "a@x.com".
Proof. apply (helpers_distinct "a@x.com" "a@x.com"). Defined.

(** ** A deletion that misses its binding *)

Lemma set_order_singleton (set_order : gset string -> list string) (x : string) :
  (forall s, set_order s ≡ₚ elements s) ->
  set_order (list_to_set [x]) = [x].
Proof.
  intros Hperm. apply Permutation_singleton_r. rewrite Hperm. simpl.
  assert (({[x]} ∪ ∅ : gset string) = {[x]}) as -> by apply (right_id_L ∅ (∪)).
  by rewrite elements_singleton.
Qed.

(** C4, the failing run: a policy is decoded from a resource with the
    binding [roles/owner -> user:a@x.com]; [policy[OWNER_ROLE] =
    ["user:a@x.com"]] appends a binding for the constant, equal as a
    dict to the decoded one.  [del policy[OWNER_ROLE]] then stops at the
    appended binding but [list.remove] takes out the decoded one: the
    call succeeds, the matched binding is still in the list, and
    [policy[OWNER_ROLE]] still returns [{user:a@x.com}]. *)
Theorem delitem_misses_matched_binding (set_order : gset string -> list string) :
  (forall s, set_order s ≡ₚ elements s) ->
  set_del_get set_order OWNER_ROLE ["user:a@x.com"]
    (world_of (from_api_repr resource_decoded))
  = (inr (PySet {["user:a@x.com"]}),
     with_bindings (world_of (from_api_repr resource_decoded))
       (PyList [ {| role := OWNER_ROLE; members := ["user:a@x.com"];
                    member := None |} ])).
Proof.
  intros Hperm.
  assert (from_api_repr resource_decoded =
            {| etag := None; version := None;
               _bindings := PyList [ {| role := PyStr 20 "roles/owner";
                                         members := ["user:a@x.com"];
                                         member := None |} ] |}) as ->
    by reflexivity.
  unfold set_del_get. rewrite bind_run.
  rewrite (setitem_fresh set_order _ OWNER_ROLE ["user:a@x.com"]
             [ {| role := PyStr 20 "roles/owner"; members := ["user:a@x.com"];
                  member := None |} ]); [| done | done |].
  - unfold new_binding. rewrite (set_order_singleton set_order _ Hperm).
    vm_compute. reflexivity.
  - intros b Hb. apply list_elem_of_singleton in Hb. by subst b.
Qed.

Lemma delitem_misses_matched_binding_witness :
  set_del_get elements OWNER_ROLE ["user:a@x.com"]
    (world_of (from_api_repr resource_decoded))
  = (inr (PySet {["user:a@x.com"]}),
     with_bindings (world_of (from_api_repr resource_decoded))
       (PyList [ {| role := OWNER_ROLE; members := ["user:a@x.com"];
                    member := None |} ])).
Proof.
  apply delitem_misses_matched_binding. intros s. reflexivity.
Defined.
